(** * Storage service façade (pkg/services/store/service.go)

    A shallow embedding of the Grafana storage service: organisation
    resolution, the upload pipeline (resolve root, validate, sanitize,
    overwrite check, commit) and the delete path, over an abstract
    storage backend.  Go [error] values, the logger and the calls made
    on collaborators are explicit, so that statements such as "Upsert is
    never invoked" or "the reason is only logged" can be written down. *)

From Stdlib Require Import ZArith String Ascii List Bool Lia.
From stdpp Require Import base gmap strings list.

Local Open Scope string_scope.
Local Open Scope list_scope.
Local Open Scope Z_scope.

(** ** Go strings

    Go strings are byte sequences; [string] over 8-bit [ascii] is the same
    data.  [HasPrefix] and [TrimPrefix] follow package [strings]. *)
Module strings.

Fixpoint HasPrefix (s prefix : string) {struct prefix} : bool :=
  match prefix with
  | EmptyString => true
  | String p prefix' =>
      match s with
      | EmptyString => false
      | String c s' => Ascii.eqb c p && HasPrefix s' prefix'
      end
  end.

(** [s[n:]] *)
Fixpoint from (n : nat) (s : string) : string :=
  match n with
  | O => s
  | S n' => match s with EmptyString => EmptyString | String _ s' => from n' s' end
  end.

Definition TrimPrefix (s prefix : string) : string :=
  if HasPrefix s prefix then from (String.length prefix) s else s.

(** [strings.Split(s, sep)] for a one-byte separator: the fields between
    separators, empty fields included. *)
Fixpoint Split (s : string) (sep : ascii) : list string :=
  match s with
  | EmptyString => [EmptyString]
  | String c s' =>
      if Ascii.eqb c sep then EmptyString :: Split s' sep
      else match Split s' sep with
           | [] => [String c EmptyString]
           | seg :: segs => String c seg :: segs
           end
  end.

End strings.

(** ** Errors

    The five package-level sentinels of service.go are values of their own
    (Go compares them by identity); [errorString] stands for every other
    error value: the ones built on the spot by [fmt.Errorf], and the ones
    a backend hands back. *)
Inductive error : Type :=
| ErrUploadFeatureDisabled
| ErrUnsupportedStorage
| ErrUploadInternalError
| ErrValidationFailed
| ErrFileAlreadyExists
| errorString (msg : string).

(** [err.Error()] *)
Definition Error (e : error) : string :=
  match e with
  | ErrUploadFeatureDisabled => "upload feature is disabled"
  | ErrUnsupportedStorage => "storage does not support upload operation"
  | ErrUploadInternalError => "upload internal error"
  | ErrValidationFailed => "request validation failed"
  | ErrFileAlreadyExists => "file exists"
  | errorString msg => msg
  end.

Module fmt.
Definition Errorf (msg : string) : error := errorString msg.
End fmt.

#[export] Instance error_eq_dec : EqDecision error.
Proof. solve_decision. Defined.

Definition RootPublicStatic : string := "public-static".
Definition RootResources : string := "resources".

Definition MAX_UPLOAD_SIZE : Z := 3 * 1024 * 1024.

(** ** Data *)

(** [models.SignedInUser]: only the organisation id is read here. *)
Record SignedInUser : Type := { OrgId : Z }.

(** [type EntityType string] *)
Definition EntityType : Type := string.

Record UploadRequest : Type := {
  Contents : list Byte.byte;
  MimeType : string;
  Path : string;
  CacheControl : string;
  ContentDisposition : string;
  Properties : gmap string string;
  EntityType_ : EntityType;
  OverwriteExistingFile : bool
}.

Record validationResult : Type := { ok : bool; reason : string }.

(** Modelled from the spec: [filestorage.UpsertFileCommand] is declared in
    package filestorage, outside the sources at hand.  It is the
    "sanitized, backend-ready form of an UploadRequest": a root-relative
    path, the payload and the metadata. *)
Record UpsertFileCommand : Type := {
  cmdPath : string;
  cmdMimeType : string;
  cmdCacheControl : string;
  cmdContentDisposition : string;
  cmdContents : list Byte.byte;
  cmdProperties : gmap string string
}.

(** Modelled from the spec: [filestorage.File], the blob a backend [Get]
    returns, fully materialised. *)
Record File : Type := {
  fileContents : list Byte.byte;
  fileMimeType : string;
  fileProperties : gmap string string
}.

(** ** Storage roots *)

Record StorageLocalDiskConfig : Type := {
  diskPath : string;
  diskRoots : list string
}.

Record StorageSQLConfig : Type := {}.

(** [*sqlstore.SQLStore]: a reference to the database.  The number stands
    for the pointer; what the database holds is part of the backend world
    below. *)
Inductive SQLStore : Type := sqlStoreAt (addr : positive).

Inductive storageBacking : Type :=
| onDisk (cfg : StorageLocalDiskConfig)
| onSQL (cfg : StorageSQLConfig) (sql : SQLStore) (orgId : Z).

(** Modelled from the spec: [storageRuntime] values are the StorageRoots of
    the registry: a name, a description, the read-only and builtin flags
    and the backend they are bound to.  Their constructors and the fluent
    setters live in files that are not among the sources. *)
Record storageRuntime : Type := {
  rootName : string;
  rootDescription : string;
  rootReadOnly : bool;
  rootBuiltin : bool;
  rootBacking : storageBacking
}.

(** Modelled from the spec: the constructors of disk and SQL roots and the
    builder-style setters ([setReadOnly], [setBuiltin], [setDescription])
    are not among the sources; a new root is writable and not builtin
    until a setter says otherwise. *)
Definition newDiskStorage (name description : string) (cfg : StorageLocalDiskConfig)
  : storageRuntime :=
  {| rootName := name; rootDescription := description;
     rootReadOnly := false; rootBuiltin := false; rootBacking := onDisk cfg |}.

Definition newSQLStorage (name description : string) (cfg : StorageSQLConfig)
    (sql : SQLStore) (orgId : Z) : storageRuntime :=
  {| rootName := name; rootDescription := description;
     rootReadOnly := false; rootBuiltin := false; rootBacking := onSQL cfg sql orgId |}.

Definition setReadOnly (val : bool) (r : storageRuntime) : storageRuntime :=
  {| rootName := rootName r; rootDescription := rootDescription r;
     rootReadOnly := val; rootBuiltin := rootBuiltin r; rootBacking := rootBacking r |}.

Definition setBuiltin (val : bool) (r : storageRuntime) : storageRuntime :=
  {| rootName := rootName r; rootDescription := rootDescription r;
     rootReadOnly := rootReadOnly r; rootBuiltin := val; rootBacking := rootBacking r |}.

Definition setDescription (val : string) (r : storageRuntime) : storageRuntime :=
  {| rootName := rootName r; rootDescription := val;
     rootReadOnly := rootReadOnly r; rootBuiltin := rootBuiltin r; rootBacking := rootBacking r |}.

(** ** Collaborators *)

(** The backend capability a root is bound to ([filestorage.FileStorage],
    embedded in [storageRuntime]).  [World] is everything durable behind
    the roots; a method is dispatched on the root it is called on.  [Get]
    is a lookup and returns the Go pair (file, err); [Upsert] and [Delete]
    return their error and the world they leave. *)
Module filestorage.

Class FileStorage (World : Type) : Type := {
  Get : storageRuntime -> string -> World -> option File * option error;
  Upsert : storageRuntime -> option UpsertFileCommand -> World -> option error * World;
  Delete : storageRuntime -> string -> World -> option error * World
}.

End filestorage.

(** The two unexported methods of the [StorageService] interface.  The
    interface declares them; [Upload] calls them on the service. *)
Class UploadChecks : Type := {
  validateUploadRequest :
    option SignedInUser -> UploadRequest -> string -> validationResult;
  sanitizeUploadRequest :
    option SignedInUser -> UploadRequest -> string -> option UpsertFileCommand * option error
}.

(** ** The namespace tree *)

Record nestedTree : Type := {
  initializeOrgStorages : Z -> list storageRuntime;
  rootsByOrgId : gmap Z (list storageRuntime)
}.

Definition findRootNamed (name : string) (roots : list storageRuntime)
  : option storageRuntime :=
  List.find (fun r => String.eqb (rootName r) name) roots.

(** Modelled from the spec: [nestedTree.init] is not among the sources; the
    registry is "built once at startup" from [rootsByOrgId], and lookups
    here read that map directly, so there is no index to build. *)
Definition init (t : nestedTree) : nestedTree := t.

(** Modelled from the spec: organisation roots are "lazily constructed on
    first access via a supplied factory function and cached". *)
Definition getOrInitOrgRoots (orgId : Z) (t : nestedTree)
  : list storageRuntime * nestedTree :=
  match rootsByOrgId t !! orgId with
  | Some roots => (roots, t)
  | None =>
      let roots := initializeOrgStorages t orgId in
      (roots, {| initializeOrgStorages := initializeOrgStorages t;
                 rootsByOrgId := <[orgId := roots]> (rootsByOrgId t) |})
  end.

Record standardStorageService : Type := {
  sql : option SQLStore;
  tree : nestedTree
}.

(** ** Service state, calls and log *)

Inductive call : Type :=
| call_getRoot (orgId : Z) (name : string)
| call_validateUploadRequest (user : option SignedInUser) (req : UploadRequest)
    (storagePath : string)
| call_sanitizeUploadRequest (user : option SignedInUser) (req : UploadRequest)
    (storagePath : string)
| call_Get (root : storageRuntime) (path : string)
| call_Upsert (root : storageRuntime) (cmd : option UpsertFileCommand)
| call_Delete (root : storageRuntime) (path : string).

(** The calls that reach a backend. *)
Definition isBackendCall (c : call) : bool :=
  match c with
  | call_Get _ _ | call_Upsert _ _ | call_Delete _ _ => true
  | _ => false
  end.

Inductive logLevel : Type := lvlInfo | lvlWarn | lvlError.

Inductive logValue : Type :=
| logString (s : string)
| logError (e : error).

Record logEntry : Type := {
  level : logLevel;
  message : string;
  context : list (string * logValue)
}.

(** What a call of the service can read and change: the service object
    [self] (the per-organisation cache of its tree fills on first access),
    the durable world behind the roots, and, as a record of what happened,
    the calls made on collaborators and the lines written to
    [grafanaStorageLogger]. *)
Record state (World : Type) : Type := {
  self : standardStorageService;
  world : World;
  calls : list call;
  logs : list logEntry
}.
Arguments self {World} _.
Arguments world {World} _.
Arguments calls {World} _.
Arguments logs {World} _.

(** State passing. *)
Definition M (World A : Type) : Type := state World -> A * state World.

Definition ret {World A : Type} (a : A) : M World A := fun s => (a, s).

Definition bind {World A B : Type} (m : M World A) (k : A -> M World B) : M World B :=
  fun s => let '(a, s') := m s in k a s'.

Notation "x <- m ;; k" := (bind m (fun x => k))
  (at level 100, m at next level, right associativity).
Notation "m ;;; k" := (bind m (fun _ => k))
  (at level 100, right associativity).

Definition recordCall {World : Type} (c : call) : M World unit :=
  fun s => (tt, {| self := self s; world := world s;
                   calls := calls s ++ [c]; logs := logs s |}).

Definition writeLog {World : Type} (e : logEntry) : M World unit :=
  fun s => (tt, {| self := self s; world := world s;
                   calls := calls s; logs := logs s ++ [e] |}).

Module grafanaStorageLogger.
Definition Info {World : Type} (msg : string) (ctx : list (string * logValue))
  : M World unit := writeLog {| level := lvlInfo; message := msg; context := ctx |}.
Definition Warn {World : Type} (msg : string) (ctx : list (string * logValue))
  : M World unit := writeLog {| level := lvlWarn; message := msg; context := ctx |}.
Definition Error {World : Type} (msg : string) (ctx : list (string * logValue))
  : M World unit := writeLog {| level := lvlError; message := msg; context := ctx |}.
End grafanaStorageLogger.

(** The lines [Upload] writes to the log. *)
Definition validationFailedLine (req : UploadRequest) (reason : string) : logEntry :=
  {| level := lvlWarn; message := "file upload validation failed";
     context := [("filetype", logString (MimeType req)); ("path", logString (Path req));
                 ("reason", logString reason)] |}.

Definition sanitizeFailedLine (req : UploadRequest) (err : error) : logEntry :=
  {| level := lvlError; message := "failed while sanitizing the upload request";
     context := [("filetype", logString (MimeType req)); ("path", logString (Path req));
                 ("error", logError err)] |}.

Definition uploadingLine (req : UploadRequest) : logEntry :=
  {| level := lvlInfo; message := "uploading a file";
     context := [("filetype", logString (MimeType req)); ("path", logString (Path req))] |}.

Definition existenceFailedLine (req : UploadRequest) (err : error) : logEntry :=
  {| level := lvlError; message := "failed while checking file existence";
     context := [("err", logError err); ("path", logString (Path req))] |}.

Definition upsertFailedLine (req : UploadRequest) (err : error) : logEntry :=
  {| level := lvlError; message := "failed while uploading the file";
     context := [("err", logError err); ("path", logString (Path req))] |}.

(** ** The service *)

Section Service.

(** [ac.GlobalOrgID], the reserved organisation id of the shared
    namespace; the constant is declared in package accesscontrol. *)
Variable GlobalOrgID : Z.

Definition getOrgId (user : option SignedInUser) : Z :=
  match user with
  | None => GlobalOrgID
  | Some user => OrgId user
  end.

(** Modelled from the spec: [nestedTree.getRoot] is not among the sources.
    It is the "direct lookup" of a root by name in the namespace of an
    organisation: the global roots, shared by all, then the roots of the
    organisation, initialised on first access. *)
Definition getRoot (orgId : Z) (name : string) (t : nestedTree)
  : option storageRuntime * nestedTree :=
  match findRootNamed name (default [] (rootsByOrgId t !! GlobalOrgID)) with
  | Some root => (Some root, t)
  | None =>
      if orgId =? GlobalOrgID then (None, t)
      else
        let '(roots, t') := getOrInitOrgRoots orgId t in
        (findRootNamed name roots, t')
  end.

Definition newStandardStorageService (globalRoots : list storageRuntime)
    (initializeOrgStorages : Z -> list storageRuntime) : standardStorageService :=
  let rootsByOrgId : gmap Z (list storageRuntime) := <[GlobalOrgID := globalRoots]> ∅ in
  let res := {| initializeOrgStorages := initializeOrgStorages;
                rootsByOrgId := rootsByOrgId |} in
  let res := init res in
  {| sql := None; tree := res |}.

Context {World : Type} {backend : filestorage.FileStorage World} {checks : UploadChecks}.

(** [s.tree.getRoot(orgId, name)] *)
Definition tree_getRoot (orgId : Z) (name : string) : M World (option storageRuntime) :=
  recordCall (call_getRoot orgId name) ;;;
  fun s =>
    let '(root, t') := getRoot orgId name (tree (self s)) in
    (root, {| self := {| sql := sql (self s); tree := t' |};
              world := world s; calls := calls s; logs := logs s |}).

(** [s.validateUploadRequest(ctx, user, req, storagePath)] *)
Definition s_validateUploadRequest (user : option SignedInUser) (req : UploadRequest)
    (storagePath : string) : M World validationResult :=
  recordCall (call_validateUploadRequest user req storagePath) ;;;
  ret (validateUploadRequest user req storagePath).

(** [s.sanitizeUploadRequest(ctx, user, req, storagePath)] *)
Definition s_sanitizeUploadRequest (user : option SignedInUser) (req : UploadRequest)
    (storagePath : string) : M World (option UpsertFileCommand * option error) :=
  recordCall (call_sanitizeUploadRequest user req storagePath) ;;;
  ret (sanitizeUploadRequest user req storagePath).

(** [upload.Get(ctx, path)] *)
Definition upload_Get (upload : storageRuntime) (path : string)
  : M World (option File * option error) :=
  recordCall (call_Get upload path) ;;;
  fun s => (filestorage.Get upload path (world s), s).

(** [upload.Upsert(ctx, cmd)] *)
Definition upload_Upsert (upload : storageRuntime) (cmd : option UpsertFileCommand)
  : M World (option error) :=
  recordCall (call_Upsert upload cmd) ;;;
  fun s =>
    let '(err, w') := filestorage.Upsert upload cmd (world s) in
    (err, {| self := self s; world := w'; calls := calls s; logs := logs s |}).

(** [upload.Delete(ctx, path)] *)
Definition upload_Delete (upload : storageRuntime) (path : string)
  : M World (option error) :=
  recordCall (call_Delete upload path) ;;;
  fun s =>
    let '(err, w') := filestorage.Delete upload path (world s) in
    (err, {| self := self s; world := w'; calls := calls s; logs := logs s |}).

(** The overwrite check of [Upload]: the block under
    [if !req.OverwriteExistingFile].  [Some e] is an early [return e]. *)
Definition checkExisting (upload : storageRuntime) (req : UploadRequest)
    (storagePath : string) : M World (option error) :=
  if negb (OverwriteExistingFile req) then
    r <- upload_Get upload storagePath ;;
    let '(file, err) := r in
    match err with
    | Some err =>
        grafanaStorageLogger.Error "failed while checking file existence"
          [("err", logError err); ("path", logString (Path req))] ;;;
        ret (Some ErrUploadInternalError)
    | None =>
        match file with
        | Some _ => ret (Some ErrFileAlreadyExists)
        | None => ret None
        end
    end
  else ret None.

Definition Upload (user : option SignedInUser) (req : UploadRequest)
  : M World (option error) :=
  upload <- tree_getRoot (getOrgId user) RootResources ;;
  match upload with
  | None => ret (Some ErrUploadFeatureDisabled)
  | Some upload =>
      if negb (strings.HasPrefix (Path req) (RootResources +:+ "/")) then
        ret (Some ErrUnsupportedStorage)
      else
        let storagePath := strings.TrimPrefix (Path req) RootResources in
        validationResult <- s_validateUploadRequest user req storagePath ;;
        if negb (ok validationResult) then
          grafanaStorageLogger.Warn "file upload validation failed"
            [("filetype", logString (MimeType req)); ("path", logString (Path req));
             ("reason", logString (reason validationResult))] ;;;
          ret (Some ErrValidationFailed)
        else
          r <- s_sanitizeUploadRequest user req storagePath ;;
          let '(upsertCommand, err) := r in
          match err with
          | Some err =>
              grafanaStorageLogger.Error "failed while sanitizing the upload request"
                [("filetype", logString (MimeType req)); ("path", logString (Path req));
                 ("error", logError err)] ;;;
              ret (Some ErrUploadInternalError)
          | None =>
              grafanaStorageLogger.Info "uploading a file"
                [("filetype", logString (MimeType req)); ("path", logString (Path req))] ;;;
              early <- checkExisting upload req storagePath ;;
              match early with
              | Some err => ret (Some err)
              | None =>
                  err <- upload_Upsert upload upsertCommand ;;
                  match err with
                  | Some err =>
                      grafanaStorageLogger.Error "failed while uploading the file"
                        [("err", logError err); ("path", logString (Path req))] ;;;
                      ret (Some ErrUploadInternalError)
                  | None => ret None
                  end
              end
          end
  end.

Definition Delete (user : option SignedInUser) (path : string) : M World (option error) :=
  upload <- tree_getRoot (getOrgId user) RootResources ;;
  match upload with
  | None => ret (Some (fmt.Errorf "upload feature is not enabled"))
  | Some upload =>
      err <- upload_Delete upload path ;;
      match err with
      | Some err => ret (Some err)
      | None => ret None
      end
  end.

(** The root [Upload] and [Delete] resolve for a caller, with the tree
    that the lookup leaves. *)
Definition resolveUploadRoot (user : option SignedInUser) (s : state World)
  : option storageRuntime * nestedTree :=
  getRoot (getOrgId user) RootResources (tree (self s)).

(** The state a call leaves, told by what changed: the tree, the world,
    the calls made and the lines logged since [s]. *)
Definition stateAfter (s : state World) (t' : nestedTree) (w' : World)
    (made : list call) (logged : list logEntry) : state World :=
  {| self := {| sql := sql (self s); tree := t' |};
     world := w';
     calls := calls s ++ made;
     logs := logs s ++ logged |}.

(** [List] and [Read] hand over to the tree's [ListFolder] and [GetFile],
    which are not among the sources: they are taken as given. *)
Section ListRead.
Variable Frame : Type.
Variable ListFolder : Z -> string -> M World (option Frame * option error).
Variable GetFile : Z -> string -> M World (option File * option error).

Definition List (user : option SignedInUser) (path : string)
  : M World (option Frame * option error) :=
  ListFolder (getOrgId user) path.

Definition Read (user : option SignedInUser) (path : string)
  : M World (option File * option error) :=
  GetFile (getOrgId user) path.
End ListRead.

End Service.

(** ** Construction *)

(** [setting.Cfg]: only the static root path is read here. *)
Record Cfg : Type := { StaticRootPath : string }.

(** The settings [LoadStorageConfig] returns; only [AddDevEnv] is read. *)
Record GlobalStorageConfig : Type := { AddDevEnv : bool }.

(** [featuremgmt.FeatureToggles] *)
Record FeatureToggles : Type := { IsEnabled : string -> bool }.

Section Construction.

Variable GlobalOrgID : Z.

(** Declared elsewhere in the repository or in Go's library, and taken as
    given: the configuration loader, the environment name and the name of
    the production environment, [filepath.Join], the probe
    [os.IsNotExist(err)] on the error of [os.Stat(path)], and the name of
    the upload feature flag. *)
Variable LoadStorageConfig : Cfg -> GlobalStorageConfig * option error.
Variable setting_Env setting_Prod : string.
Variable filepath_Join : list string -> string.
Variable os_Stat_IsNotExist : string -> bool.
Variable FlagStorageLocalUpload : string.

Definition ProvideService (sql : SQLStore) (features : FeatureToggles) (cfg : Cfg)
  : standardStorageService :=
  let '(settings, err) := LoadStorageConfig cfg in
  let _ := match err with
           | Some _ => tt   (* if err != nil { } *)
           | None => tt
           end in
  (* always exists *)
  let globalRoots :=
    [ setDescription "Access files from the static public files"
        (setBuiltin true (setReadOnly true
          (newDiskStorage RootPublicStatic "Public static files"
             {| diskPath := StaticRootPath cfg;
                diskRoots := ["/testdata/"; "/img/"; "/gazetteer/"; "/maps/"] |}))) ] in
  (* Development dashboards *)
  let globalRoots :=
    if AddDevEnv settings && negb (String.eqb setting_Env setting_Prod) then
      let devenv := filepath_Join [StaticRootPath cfg; ".."; "devenv"] in
      if negb (os_Stat_IsNotExist devenv) then
        let s := setDescription "Explore files within the developer environment directly"
                   (setReadOnly false
                      (newDiskStorage "devenv" "Development Environment"
                         {| diskPath := devenv; diskRoots := ["/dev-dashboards/"] |})) in
        (globalRoots ++ [s])%list
      else globalRoots
    else globalRoots in
  let initializeOrgStorages := fun orgId : Z =>
    let storages : list storageRuntime := [] in
    if IsEnabled features FlagStorageLocalUpload then
      (storages ++
        [ setDescription "Upload custom resource files"
            (setBuiltin true
               (newSQLStorage RootResources "Resources" Build_StorageSQLConfig sql orgId)) ])%list
    else storages in
  let s := newStandardStorageService GlobalOrgID globalRoots initializeOrgStorages in
  {| sql := Some sql; tree := tree s |}.

End Construction.

(** ** The upload checks of the standard service *)

(** What the validation leaves to policy: which root-relative paths and
    which declared MIME types are allowed. *)
Record uploadPolicy : Type := {
  pathAllowed : string -> bool;
  mimeAllowed : string -> bool
}.

(** A path has a traversal segment when one of its [/]-separated segments
    is [..]. *)
Definition hasTraversalSegment (path : string) : bool :=
  existsb (String.eqb "..") (strings.Split path "/"%char).

Definition fail (reason : string) : validationResult := {| ok := false; reason := reason |}.
Definition success : validationResult := {| ok := true; reason := "" |}.

(** Modelled from the spec: the body of [validateUploadRequest] is not among
    the sources.  "Checks, all must pass: payload non-empty and ≤ maximum
    size (3 MiB); path, after stripping the root prefix, contains no
    traversal segments and is restricted to an allow-list [...]; declared
    MIME type is consistent with policy.  Any failure produces a
    ValidationResult carrying a specific reason string." *)
Definition standard_validateUploadRequest (policy : uploadPolicy)
    (user : option SignedInUser) (req : UploadRequest) (storagePath : string)
  : validationResult :=
  let size := Z.of_nat (List.length (Contents req)) in
  if size =? 0 then fail "empty payload"
  else if MAX_UPLOAD_SIZE <? size then fail "payload exceeds the maximum upload size"
  else if hasTraversalSegment storagePath then fail ("traversal segment in path: " +:+ storagePath)
  else if negb (pathAllowed policy storagePath) then fail ("path not allowed: " +:+ storagePath)
  else if negb (mimeAllowed policy (MimeType req)) then
    fail ("mime type not allowed: " +:+ MimeType req)
  else success.

(** Modelled from the spec: the body of [sanitizeUploadRequest] is not among
    the sources.  "Path rebased root-relative, properties/metadata copied
    verbatim, MIME/cache-control/content-disposition passed through
    unchanged." *)
Definition standard_sanitizeUploadRequest
    (user : option SignedInUser) (req : UploadRequest) (storagePath : string)
  : option UpsertFileCommand * option error :=
  (Some {| cmdPath := storagePath;
           cmdMimeType := MimeType req;
           cmdCacheControl := CacheControl req;
           cmdContentDisposition := ContentDisposition req;
           cmdContents := Contents req;
           cmdProperties := Properties req |}, None).

Definition standardChecks (policy : uploadPolicy) : UploadChecks :=
  {| validateUploadRequest := standard_validateUploadRequest policy;
     sanitizeUploadRequest := standard_sanitizeUploadRequest |}.

(** The same validation under any sanitizer. *)
Definition validatingChecks (policy : uploadPolicy)
    (sanitize : option SignedInUser -> UploadRequest -> string ->
                option UpsertFileCommand * option error) : UploadChecks :=
  {| validateUploadRequest := standard_validateUploadRequest policy;
     sanitizeUploadRequest := sanitize |}.

(** ** A backend in memory

    Files by path, and a switch that makes every operation fail, as a
    database that is down would. *)
Module memstore.

Record World : Type := {
  files : gmap string File;
  down : bool
}.

Definition unavailable : error := errorString "sql: database is closed".

Definition fileOf (cmd : UpsertFileCommand) : File :=
  {| fileContents := cmdContents cmd;
     fileMimeType := cmdMimeType cmd;
     fileProperties := cmdProperties cmd |}.

Definition Get (root : storageRuntime) (path : string) (w : World)
  : option File * option error :=
  if down w then (None, Some unavailable) else (files w !! path, None).

Definition Upsert (root : storageRuntime) (cmd : option UpsertFileCommand) (w : World)
  : option error * World :=
  if down w then (Some unavailable, w)
  else match cmd with
       | None => (Some (errorString "missing command"), w)
       | Some cmd =>
           (None, {| files := <[cmdPath cmd := fileOf cmd]> (files w); down := down w |})
       end.

Definition Delete (root : storageRuntime) (path : string) (w : World)
  : option error * World :=
  if down w then (Some unavailable, w)
  else (None, {| files := delete path (files w); down := down w |}).

#[global] Instance storage : filestorage.FileStorage World :=
  {| filestorage.Get := Get; filestorage.Upsert := Upsert; filestorage.Delete := Delete |}.

End memstore.

(** ** A small deployment to run the service on *)
Module sample.

Definition GlobalOrgID : Z := 0.

Definition cfg : Cfg := {| StaticRootPath := "/usr/share/grafana/public" |}.

Definition features (upload : bool) : FeatureToggles :=
  {| IsEnabled := fun flag => upload && String.eqb flag "storageLocalUpload" |}.

Definition LoadStorageConfig (failing : bool) (cfg : Cfg)
  : GlobalStorageConfig * option error :=
  ({| AddDevEnv := false |},
   if failing then Some (errorString "storage.json: unexpected end of JSON input") else None).

Definition service (upload : bool) : standardStorageService :=
  ProvideService GlobalOrgID (LoadStorageConfig false) "development" "production"
    (fun elems => String.concat "/" elems) (fun _ => true) "storageLocalUpload"
    (sqlStoreAt 1) (features upload) cfg.

Definition allowAll : uploadPolicy :=
  {| pathAllowed := fun _ => true; mimeAllowed := fun _ => true |}.

Definition png : list Byte.byte := [Byte.x89; Byte.x50; Byte.x4e; Byte.x47].

Definition logo : File :=
  {| fileContents := [Byte.x47; Byte.x49; Byte.x46]; fileMimeType := "image/gif";
     fileProperties := ∅ |}.

Definition request (path : string) (contents : list Byte.byte) (overwrite : bool)
  : UploadRequest :=
  {| Contents := contents; MimeType := "image/png"; Path := path;
     CacheControl := ""; ContentDisposition := ""; Properties := ∅;
     EntityType_ := "image"; OverwriteExistingFile := overwrite |}.

Definition editor : option SignedInUser := Some {| OrgId := 1 |}.

(** One file, [/a.txt], stored under the resources root. *)
Definition stored : memstore.World :=
  {| memstore.files := {[ "/a.txt" := logo ]}; memstore.down := false |}.

Definition start (upload : bool) (w : memstore.World) : state memstore.World :=
  {| self := service upload; world := w; calls := []; logs := [] |}.

Definition resources : storageRuntime :=
  setDescription "Upload custom resource files"
    (setBuiltin true
       (newSQLStorage RootResources "Resources" Build_StorageSQLConfig (sqlStoreAt 1) 1)).

(** The tree once organisation 1 has been looked up: its roots are cached. *)
Definition mounted : nestedTree :=
  snd (getRoot GlobalOrgID 1 RootResources (tree (service true))).

(** The tree once organisation 1 has been looked up with the upload
    feature off: its list of roots is cached, and empty. *)
Definition unmounted : nestedTree :=
  snd (getRoot GlobalOrgID 1 RootResources (tree (service false))).

(** Checks whose sanitizer always fails. *)
Definition failingSanitizer : UploadChecks :=
  validatingChecks allowAll
    (fun _ _ _ => (None, Some (errorString "cannot normalise the path"))).

(** The same store with the database down. *)
Definition broken : memstore.World :=
  {| memstore.files := {[ "/a.txt" := logo ]}; memstore.down := true |}.

(** One byte more than the maximum upload size. *)
Definition oversized : list Byte.byte :=
  repeat Byte.x00 (Z.to_nat (MAX_UPLOAD_SIZE + 1)).

Definition checks : UploadChecks := standardChecks allowAll.

(** The service run on this deployment: [enabled] is the upload feature
    flag, [w] the store the call starts from. *)
Definition runUpload (enabled : bool) (w : memstore.World)
    (user : option SignedInUser) (req : UploadRequest)
  : option error * state memstore.World :=
  Upload GlobalOrgID (backend := memstore.storage) (checks := checks) user req (start enabled w).

Definition runDelete (enabled : bool) (w : memstore.World)
    (user : option SignedInUser) (path : string)
  : option error * state memstore.World :=
  Delete GlobalOrgID (backend := memstore.storage) user path (start enabled w).

Definition commandOf (req : UploadRequest) : UpsertFileCommand :=
  {| cmdPath := strings.TrimPrefix (Path req) RootResources;
     cmdMimeType := MimeType req;
     cmdCacheControl := CacheControl req;
     cmdContentDisposition := ContentDisposition req;
     cmdContents := Contents req;
     cmdProperties := Properties req |}.

End sample.

(** ** What a run added

    The calls a run made and the lines it logged, after those of the state
    it started from. *)

Definition callsSince {World : Type} (s s' : state World) : list call :=
  drop (List.length (calls s)) (calls s').

Definition logsSince {World : Type} (s s' : state World) : list logEntry :=
  drop (List.length (logs s)) (logs s').

Definition backendCallsSince {World : Type} (s s' : state World) : list call :=
  List.filter isBackendCall (callsSince s s').

Definition levelEqb (a b : logLevel) : bool :=
  match a, b with
  | lvlInfo, lvlInfo | lvlWarn, lvlWarn | lvlError, lvlError => true
  | _, _ => false
  end.

(** Some line of [lines] was written at level [l]. *)
Definition loggedAt (l : logLevel) (lines : list logEntry) : bool :=
  existsb (fun e => levelEqb (level e) l) lines.

(** ** Sharing a dashboard (SharePublicDashboardUtils.ts)

    The helpers of the share dialog.  A request to the backend either
    resolves with a value or rejects; what a helper does besides is a list
    of effects, in the order they happen. *)
Module SharePublicDashboardUtils.

Record ListPublicDashboardResponse : Type := {
  uid : string;
  accessToken : string;
  dashboardUid : string;
  title : string;
  isEnabled : bool
}.

Section Helpers.

(** An object of the backend is a map from keys to values; what the values
    are, and what a rejection carries, is of no concern here. *)
Variable value : Type.
Variable rejection : Type.

Inductive settled (A : Type) : Type :=
| resolved (a : A)
| rejected (reason : rejection).
Arguments resolved {A} _.
Arguments rejected {A} _.

Inductive effect : Type :=
| backendGet (url : string)
| backendPost (url : string) (body : gmap string value)
| dispatchSuccess (message : string)
| setPublicDashboards (dashboards : list ListPublicDashboardResponse)
| setPublicDashboard (config : gmap string value).

(** [Number(b)] for a boolean *)
Definition Number (b : bool) : Z := if b then 1 else 0.

(** [Array.prototype.sort(comparefn)].  The sort is stable and leaves [a]
    before [b] when [comparefn(a, b) <= 0] for a consistent comparator;
    insertion from the right computes that order. *)
Fixpoint sortInsert {A : Type} (comparefn : A -> A -> Z) (x : A) (sorted : list A) : list A :=
  match sorted with
  | [] => [x]
  | y :: rest =>
      if comparefn x y <=? 0 then x :: y :: rest
      else y :: sortInsert comparefn x rest
  end.

Fixpoint sort {A : Type} (comparefn : A -> A -> Z) (array : list A) : list A :=
  match array with
  | [] => []
  | x :: rest => sortInsert comparefn x (sort comparefn rest)
  end.

Definition listPublicDashboardsUrl : string := "/api/dashboards/public".

(** A template literal turns [undefined] into the text [undefined]. *)
Definition generatePublicDashboardUrl (origin : string) (accessToken : option string)
  : string :=
  origin +:+ "/public-dashboards/" +:+
  match accessToken with
  | Some token => token
  | None => "undefined"
  end.

Definition getPublicDashboardConfigUrl (dashboardUid : string) : string :=
  "/api/dashboards/uid/" +:+ dashboardUid +:+ "/public-config".

Definition savePublicDashboardConfigUrl (dashboardUid : string) : string :=
  "/api/dashboards/uid/" +:+ dashboardUid +:+ "/public-config".

Definition dashboardHasTemplateVariables {VariableModel : Type}
    (variables : list VariableModel) : bool :=
  (0 <? List.length variables)%nat.

(** [uid] is a string by its type, and may be missing all the same. *)
Definition publicDashboardPersisted (uid : option string) : bool :=
  match uid with
  | Some uid => negb (String.eqb uid "")
  | None => false
  end.

Definition listPublicDashboards
    (get : string -> settled (list ListPublicDashboardResponse))
  : list effect * option rejection :=
  match get listPublicDashboardsUrl with
  | rejected reason => ([backendGet listPublicDashboardsUrl], Some reason)
  | resolved resp =>
      ([backendGet listPublicDashboardsUrl;
        setPublicDashboards
          (sort (fun a b => Number (isEnabled b) - Number (isEnabled a)) resp)],
       None)
  end.

Definition getPublicDashboardConfig
    (get : string -> settled (gmap string value)) (dashboardUid : string)
  : list effect * option rejection :=
  match get (getPublicDashboardConfigUrl dashboardUid) with
  | rejected reason => ([backendGet (getPublicDashboardConfigUrl dashboardUid)], Some reason)
  | resolved pdResp =>
      ([backendGet (getPublicDashboardConfigUrl dashboardUid); setPublicDashboard pdResp],
       None)
  end.

Definition savePublicDashboardConfig
    (post : string -> gmap string value -> settled (gmap string value))
    (dashboardUid : string) (publicDashboardConfig : gmap string value)
  : list effect * option rejection :=
  let url := savePublicDashboardConfigUrl dashboardUid in
  match post url publicDashboardConfig with
  | rejected reason => ([backendPost url publicDashboardConfig], Some reason)
  | resolved pdResp =>
      (* Never allow a user to send the orgId *)
      let pdResp := delete "orgId" pdResp in
      ([backendPost url publicDashboardConfig;
        dispatchSuccess "Dashboard sharing configuration saved";
        setPublicDashboard pdResp],
       None)
  end.

End Helpers.

Arguments resolved {rejection A} _.
Arguments rejected {rejection A} _.

End SharePublicDashboardUtils.

(** * Properties *)

(** ** Strings *)

Lemma append_String (c : ascii) (s r : string) :
  String c s +:+ r = String c (s +:+ r).
Proof. reflexivity. Qed.

Lemma HasPrefix_split (s prefix : string) :
  strings.HasPrefix s prefix = true ->
  s = prefix +:+ strings.from (String.length prefix) s.
Proof.
  revert s. induction prefix as [|p prefix IH]; intros s H.
  - reflexivity.
  - destruct s as [|c s]; simpl in H; [discriminate|].
    apply andb_prop in H as [Hc Hs].
    apply Ascii.eqb_eq in Hc. subst c.
    simpl. rewrite append_String. f_equal. apply IH, Hs.
Qed.

Lemma HasPrefix_app (prefix rest : string) :
  strings.HasPrefix (prefix +:+ rest) prefix = true.
Proof.
  induction prefix as [|p prefix IH]; [reflexivity|].
  rewrite append_String. simpl. rewrite Ascii.eqb_refl. exact IH.
Qed.

Lemma from_app (prefix rest : string) :
  strings.from (String.length prefix) (prefix +:+ rest) = rest.
Proof.
  induction prefix as [|p prefix IH]; [reflexivity|].
  rewrite append_String. simpl. exact IH.
Qed.

Lemma TrimPrefix_app (prefix rest : string) :
  strings.TrimPrefix (prefix +:+ rest) prefix = rest.
Proof. unfold strings.TrimPrefix. rewrite HasPrefix_app. apply from_app. Qed.

(** A path under [resources/] keeps its leading slash when the root name is
    trimmed. *)
Lemma storagePath_of_upload_path (path : string) :
  strings.HasPrefix path (RootResources +:+ "/") = true ->
  exists rest, path = "resources/" +:+ rest /\
               strings.TrimPrefix path RootResources = "/" +:+ rest.
Proof.
  intros H. apply HasPrefix_split in H.
  set (rest := strings.from (String.length (RootResources +:+ "/")) path) in H.
  exists rest. split; [exact H|].
  rewrite H.
  change ((RootResources +:+ "/") +:+ rest) with (RootResources +:+ ("/" +:+ rest)).
  apply TrimPrefix_app.
Qed.

Lemma traversal_survives_trim (path : string) :
  strings.HasPrefix path (RootResources +:+ "/") = true ->
  hasTraversalSegment path = true ->
  hasTraversalSegment (strings.TrimPrefix path RootResources) = true.
Proof.
  intros Hp Ht.
  destruct (storagePath_of_upload_path path Hp) as (rest & -> & ->).
  unfold hasTraversalSegment in *. simpl in *. exact Ht.
Qed.

(** ** The service, step by step *)

Section Properties.

Variable GlobalOrgID : Z.
Context {World : Type} {backend : filestorage.FileStorage World} {checks : UploadChecks}.

Ltac step_service :=
  unfold Upload, Delete, checkExisting, tree_getRoot,
    s_validateUploadRequest, s_sanitizeUploadRequest, upload_Get, upload_Upsert,
    upload_Delete, grafanaStorageLogger.Info, grafanaStorageLogger.Warn,
    grafanaStorageLogger.Error, writeLog, recordCall, bind, ret,
    resolveUploadRoot in *;
  cbn [self world calls logs fst snd] in *.

Ltac tidy_state :=
  unfold stateAfter; cbn [self world calls logs sql tree];
  rewrite <- ?app_assoc, ?app_nil_r; cbn [app]; try reflexivity.

(** X1.  The resources root is not mounted for the caller's organisation:
    [Upload] returns [ErrUploadFeatureDisabled] after the root lookup and
    nothing else; no check runs, no backend is reached, nothing is
    logged. *)
Lemma Upload_feature_disabled user req (s : state World) t' :
  resolveUploadRoot GlobalOrgID user s = (None, t') ->
  Upload GlobalOrgID user req s =
    (Some ErrUploadFeatureDisabled,
     stateAfter s t' (world s) [call_getRoot (getOrgId GlobalOrgID user) RootResources] []).
Proof. intros Hroot. step_service. rewrite Hroot. tidy_state. Qed.

(** X2.  The same for [Delete], except for the error: one built on the
    spot by [fmt.Errorf], with a text of its own. *)
Lemma Delete_feature_disabled user path (s : state World) t' :
  resolveUploadRoot GlobalOrgID user s = (None, t') ->
  Delete GlobalOrgID user path s =
    (Some (fmt.Errorf "upload feature is not enabled"),
     stateAfter s t' (world s) [call_getRoot (getOrgId GlobalOrgID user) RootResources] []).
Proof. intros Hroot. step_service. rewrite Hroot. tidy_state. Qed.

(** Validation is reached and fails: the caller gets [ErrValidationFailed],
    the reason goes to the log, and no further call is made. *)
Lemma Upload_rejects_invalid user req (s : state World) upload t' :
  resolveUploadRoot GlobalOrgID user s = (Some upload, t') ->
  strings.HasPrefix (Path req) (RootResources +:+ "/") = true ->
  let storagePath := strings.TrimPrefix (Path req) RootResources in
  ok (validateUploadRequest user req storagePath) = false ->
  Upload GlobalOrgID user req s =
    (Some ErrValidationFailed,
     stateAfter s t' (world s)
       [call_getRoot (getOrgId GlobalOrgID user) RootResources;
        call_validateUploadRequest user req storagePath]
       [validationFailedLine req (reason (validateUploadRequest user req storagePath))]).
Proof.
  intros Hroot Hprefix storagePath Hbad. step_service.
  rewrite Hroot, Hprefix. cbn [negb].
  fold storagePath. rewrite Hbad. cbn [negb]. tidy_state.
Qed.

(** X3.  Sanitization fails: the error goes to the log, the caller gets
    the internal error, and no backend is reached. *)
Lemma Upload_sanitize_failed user req (s : state World) upload t' cmd err :
  resolveUploadRoot GlobalOrgID user s = (Some upload, t') ->
  strings.HasPrefix (Path req) (RootResources +:+ "/") = true ->
  let storagePath := strings.TrimPrefix (Path req) RootResources in
  ok (validateUploadRequest user req storagePath) = true ->
  sanitizeUploadRequest user req storagePath = (cmd, Some err) ->
  Upload GlobalOrgID user req s =
    (Some ErrUploadInternalError,
     stateAfter s t' (world s)
       [call_getRoot (getOrgId GlobalOrgID user) RootResources;
        call_validateUploadRequest user req storagePath;
        call_sanitizeUploadRequest user req storagePath]
       [sanitizeFailedLine req err]).
Proof.
  intros Hroot Hprefix storagePath Hok Hsan. step_service.
  rewrite Hroot, Hprefix. cbn [negb].
  fold storagePath. rewrite Hok, Hsan. cbn [negb]. tidy_state.
Qed.

(** X4.  The existence lookup fails: the backend's error goes to the log, the
    caller gets the internal error, and nothing is written. *)
Lemma Upload_existence_lookup_failed user req (s : state World) upload t' cmd file err :
  resolveUploadRoot GlobalOrgID user s = (Some upload, t') ->
  strings.HasPrefix (Path req) (RootResources +:+ "/") = true ->
  let storagePath := strings.TrimPrefix (Path req) RootResources in
  ok (validateUploadRequest user req storagePath) = true ->
  sanitizeUploadRequest user req storagePath = (cmd, None) ->
  OverwriteExistingFile req = false ->
  filestorage.Get upload storagePath (world s) = (file, Some err) ->
  Upload GlobalOrgID user req s =
    (Some ErrUploadInternalError,
     stateAfter s t' (world s)
       [call_getRoot (getOrgId GlobalOrgID user) RootResources;
        call_validateUploadRequest user req storagePath;
        call_sanitizeUploadRequest user req storagePath;
        call_Get upload storagePath]
       [uploadingLine req; existenceFailedLine req err]).
Proof.
  intros Hroot Hprefix storagePath Hok Hsan Hover Hget. step_service.
  rewrite Hroot, Hprefix. cbn [negb].
  fold storagePath. rewrite Hok, Hsan, Hover. cbn [negb self world calls logs].
  rewrite Hget. tidy_state.
Qed.

(** X5.  The commit step, reached with no file in the way: the caller gets nil
    when [Upsert] succeeds and the internal error when it fails, whatever
    error the backend gave. *)
Lemma Upload_commit_without_overwrite user req (s : state World) upload t' cmd :
  resolveUploadRoot GlobalOrgID user s = (Some upload, t') ->
  strings.HasPrefix (Path req) (RootResources +:+ "/") = true ->
  let storagePath := strings.TrimPrefix (Path req) RootResources in
  ok (validateUploadRequest user req storagePath) = true ->
  sanitizeUploadRequest user req storagePath = (cmd, None) ->
  OverwriteExistingFile req = false ->
  filestorage.Get upload storagePath (world s) = (None, None) ->
  let written := filestorage.Upsert upload cmd (world s) in
  Upload GlobalOrgID user req s =
    (match fst written with
     | Some _ => Some ErrUploadInternalError
     | None => None
     end,
     stateAfter s t' (snd written)
       [call_getRoot (getOrgId GlobalOrgID user) RootResources;
        call_validateUploadRequest user req storagePath;
        call_sanitizeUploadRequest user req storagePath;
        call_Get upload storagePath;
        call_Upsert upload cmd]
       (uploadingLine req ::
        match fst written with
        | Some err => [upsertFailedLine req err]
        | None => []
        end)).
Proof.
  intros Hroot Hprefix storagePath Hok Hsan Hover Hget written. step_service.
  rewrite Hroot, Hprefix. cbn [negb].
  fold storagePath. rewrite Hok, Hsan, Hover. cbn [negb self world calls logs].
  rewrite Hget. cbn [self world calls logs].
  subst written. destruct (filestorage.Upsert upload cmd (world s)) as [[err|] w'];
    cbn [fst snd]; tidy_state.
Qed.

(** ** The claims on the upload pipeline and on delete *)

(** C6.  With the resources root mounted for the caller's organisation, a
    request whose path does not start with [resources/] gets
    [ErrUnsupportedStorage]; the only call made is the root lookup, so
    neither validation nor sanitization nor any backend operation runs,
    nothing is logged and the world is as it was. *)
Theorem Upload_unsupported_storage user req (s : state World) upload t' :
  resolveUploadRoot GlobalOrgID user s = (Some upload, t') ->
  strings.HasPrefix (Path req) (RootResources +:+ "/") = false ->
  Upload GlobalOrgID user req s =
    (Some ErrUnsupportedStorage,
     stateAfter s t' (world s) [call_getRoot (getOrgId GlobalOrgID user) RootResources] []).
Proof.
  intros Hroot Hprefix. step_service.
  rewrite Hroot, Hprefix. cbn [negb]. tidy_state.
Qed.

(** C7.  Two uploads that both fail validation, for whatever reasons, give
    the caller the same value, [ErrValidationFailed], whose text is fixed;
    the reason of each goes to the log line of that call and nowhere
    else. *)
Theorem Upload_validation_error_is_generic
    user1 req1 (s1 : state World) upload1 t1 user2 req2 (s2 : state World) upload2 t2 :
  resolveUploadRoot GlobalOrgID user1 s1 = (Some upload1, t1) ->
  resolveUploadRoot GlobalOrgID user2 s2 = (Some upload2, t2) ->
  strings.HasPrefix (Path req1) (RootResources +:+ "/") = true ->
  strings.HasPrefix (Path req2) (RootResources +:+ "/") = true ->
  let result1 := validateUploadRequest user1 req1 (strings.TrimPrefix (Path req1) RootResources) in
  let result2 := validateUploadRequest user2 req2 (strings.TrimPrefix (Path req2) RootResources) in
  ok result1 = false ->
  ok result2 = false ->
  fst (Upload GlobalOrgID user1 req1 s1) = Some ErrValidationFailed /\
  fst (Upload GlobalOrgID user2 req2 s2) = fst (Upload GlobalOrgID user1 req1 s1) /\
  Error ErrValidationFailed = "request validation failed" /\
  logs (snd (Upload GlobalOrgID user1 req1 s1)) = logs s1 ++ [validationFailedLine req1 (reason result1)] /\
  logs (snd (Upload GlobalOrgID user2 req2 s2)) = logs s2 ++ [validationFailedLine req2 (reason result2)].
Proof.
  intros Hroot1 Hroot2 Hprefix1 Hprefix2 result1 result2 Hbad1 Hbad2.
  rewrite (Upload_rejects_invalid user1 req1 s1 upload1 t1 Hroot1 Hprefix1 Hbad1).
  rewrite (Upload_rejects_invalid user2 req2 s2 upload2 t2 Hroot2 Hprefix2 Hbad2).
  repeat split.
Qed.

(** C1.  A request that reaches the overwrite check (root mounted, path
    under [resources/], validation and sanitization passed):
    - without [OverwriteExistingFile], when the lookup finds a file at the
      path, the caller gets [ErrFileAlreadyExists]; the calls made end with
      that [Get], no [Upsert] follows, and the world is unchanged;
    - with [OverwriteExistingFile], no [Get] is made; [Upsert] is called
      with the sanitized command and the world is the one it leaves. *)
Theorem Upload_overwrite_check user req (s : state World) upload t' cmd :
  resolveUploadRoot GlobalOrgID user s = (Some upload, t') ->
  strings.HasPrefix (Path req) (RootResources +:+ "/") = true ->
  let storagePath := strings.TrimPrefix (Path req) RootResources in
  ok (validateUploadRequest user req storagePath) = true ->
  sanitizeUploadRequest user req storagePath = (cmd, None) ->
  (OverwriteExistingFile req = false ->
   forall file, filestorage.Get upload storagePath (world s) = (Some file, None) ->
   Upload GlobalOrgID user req s =
     (Some ErrFileAlreadyExists,
      stateAfter s t' (world s)
        [call_getRoot (getOrgId GlobalOrgID user) RootResources;
         call_validateUploadRequest user req storagePath;
         call_sanitizeUploadRequest user req storagePath;
         call_Get upload storagePath]
        [uploadingLine req])) /\
  (OverwriteExistingFile req = true ->
   let written := filestorage.Upsert upload cmd (world s) in
   Upload GlobalOrgID user req s =
     (match fst written with
      | Some _ => Some ErrUploadInternalError
      | None => None
      end,
      stateAfter s t' (snd written)
        [call_getRoot (getOrgId GlobalOrgID user) RootResources;
         call_validateUploadRequest user req storagePath;
         call_sanitizeUploadRequest user req storagePath;
         call_Upsert upload cmd]
        (uploadingLine req ::
         match fst written with
         | Some err => [upsertFailedLine req err]
         | None => []
         end))).
Proof.
  intros Hroot Hprefix storagePath Hok Hsan. split.
  - intros Hover file Hget. step_service.
    rewrite Hroot, Hprefix. cbn [negb].
    fold storagePath. rewrite Hok, Hsan, Hover. cbn [negb self world calls logs].
    rewrite Hget. tidy_state.
  - intros Hover written. step_service.
    rewrite Hroot, Hprefix. cbn [negb].
    fold storagePath. rewrite Hok, Hsan, Hover. cbn [negb self world calls logs].
    subst written. destruct (filestorage.Upsert upload cmd (world s)) as [[err|] w'];
      cbn [fst snd]; tidy_state.
Qed.

(** C9.  With the resources root mounted, [Delete] hands the caller's path,
    as it is, to that root's backend [Delete]: the calls made are the root
    lookup and that one [Delete]; no prefix is checked or stripped and no
    validation runs.  The caller gets what the backend returned. *)
Theorem Delete_forwards_path_verbatim user path (s : state World) upload t' :
  resolveUploadRoot GlobalOrgID user s = (Some upload, t') ->
  let deleted := filestorage.Delete upload path (world s) in
  Delete GlobalOrgID user path s =
    (fst deleted,
     stateAfter s t' (snd deleted)
       [call_getRoot (getOrgId GlobalOrgID user) RootResources; call_Delete upload path] []).
Proof.
  intros Hroot deleted. step_service. rewrite Hroot. cbn [self world calls logs].
  subst deleted. destruct (filestorage.Delete upload path (world s)) as [[err|] w'];
    cbn [fst snd]; tidy_state.
Qed.

(** Every call of [Upload] starts by looking up the resources root in the
    organisation of the caller. *)
Lemma Upload_looks_up_caller_org user req (s : state World) :
  exists rest,
    calls (snd (Upload GlobalOrgID user req s)) =
      calls s ++ call_getRoot (getOrgId GlobalOrgID user) RootResources :: rest /\
    tree (self (snd (Upload GlobalOrgID user req s))) = snd (resolveUploadRoot GlobalOrgID user s).
Proof.
  step_service.
  destruct (getRoot GlobalOrgID (getOrgId GlobalOrgID user) RootResources (tree (self s)))
    as [[upload|] t']; cbn [self world calls logs fst snd].
  2: { eexists. rewrite <- ?app_assoc. cbn [app]. split; reflexivity. }
  destruct (strings.HasPrefix (Path req) (RootResources +:+ "/")); cbn [negb].
  2: { eexists. rewrite <- ?app_assoc. cbn [app]. split; reflexivity. }
  destruct (ok (validateUploadRequest user req _)); cbn [negb self world calls logs].
  2: { eexists. rewrite <- ?app_assoc. cbn [app]. split; reflexivity. }
  destruct (sanitizeUploadRequest user req _) as [cmd [err|]]; cbn [self world calls logs].
  { eexists. rewrite <- ?app_assoc. cbn [app]. split; reflexivity. }
  destruct (OverwriteExistingFile req); cbn [negb self world calls logs].
  - destruct (filestorage.Upsert upload cmd (world s)) as [[err|] w'];
      cbn [self world calls logs fst snd sql tree];
      eexists; rewrite <- ?app_assoc; cbn [app]; split; reflexivity.
  - destruct (filestorage.Get upload _ (world s)) as [[file|] [err|]];
      cbn [self world calls logs fst snd sql tree];
      try (eexists; rewrite <- ?app_assoc; cbn [app]; split; reflexivity).
    destruct (filestorage.Upsert upload cmd (world s)) as [[err|] w'];
      cbn [self world calls logs fst snd sql tree];
      eexists; rewrite <- ?app_assoc; cbn [app]; split; reflexivity.
Qed.

Lemma Delete_looks_up_caller_org user path (s : state World) :
  exists rest,
    calls (snd (Delete GlobalOrgID user path s)) =
      calls s ++ call_getRoot (getOrgId GlobalOrgID user) RootResources :: rest /\
    tree (self (snd (Delete GlobalOrgID user path s))) = snd (resolveUploadRoot GlobalOrgID user s).
Proof.
  step_service.
  destruct (getRoot GlobalOrgID (getOrgId GlobalOrgID user) RootResources (tree (self s)))
    as [[upload|] t']; cbn [self world calls logs fst snd].
  2: { eexists. rewrite <- ?app_assoc. cbn [app]. split; reflexivity. }
  destruct (filestorage.Delete upload path (world s)) as [[err|] w'];
    cbn [self world calls logs fst snd sql tree];
    eexists; rewrite <- ?app_assoc; cbn [app]; split; reflexivity.
Qed.

(** C8.  The organisation of a call: the global organisation when the
    caller is absent, the caller's own otherwise.  [List] and [Read] pass
    it to the tree; [Upload] and [Delete] look the resources root up in
    it. *)
Theorem caller_organisation :
  getOrgId GlobalOrgID None = GlobalOrgID /\
  (forall user, getOrgId GlobalOrgID (Some user) = OrgId user) /\
  (forall (Frame : Type)
          (ListFolder : Z -> string -> M World (option Frame * option error))
          (GetFile : Z -> string -> M World (option File * option error)) path,
     List GlobalOrgID Frame ListFolder None path = ListFolder GlobalOrgID path /\
     Read GlobalOrgID GetFile None path = GetFile GlobalOrgID path /\
     forall user,
       List GlobalOrgID Frame ListFolder (Some user) path = ListFolder (OrgId user) path /\
       Read GlobalOrgID GetFile (Some user) path = GetFile (OrgId user) path) /\
  (forall req (s : state World),
     (exists rest, calls (snd (Upload GlobalOrgID None req s)) =
                     calls s ++ call_getRoot GlobalOrgID RootResources :: rest) /\
     forall user,
       exists rest, calls (snd (Upload GlobalOrgID (Some user) req s)) =
                      calls s ++ call_getRoot (OrgId user) RootResources :: rest) /\
  (forall path (s : state World),
     (exists rest, calls (snd (Delete GlobalOrgID None path s)) =
                     calls s ++ call_getRoot GlobalOrgID RootResources :: rest) /\
     forall user,
       exists rest, calls (snd (Delete GlobalOrgID (Some user) path s)) =
                      calls s ++ call_getRoot (OrgId user) RootResources :: rest).
Proof.
  split; [reflexivity|]. split; [reflexivity|]. split; [|split].
  - intros Frame ListFolder GetFile path. repeat split.
  - intros req s. split; [|intros user].
    + destruct (Upload_looks_up_caller_org None req s) as (rest & Hcalls & _). eauto.
    + destruct (Upload_looks_up_caller_org (Some user) req s) as (rest & Hcalls & _). eauto.
  - intros path s. split; [|intros user].
    + destruct (Delete_looks_up_caller_org None path s) as (rest & Hcalls & _). eauto.
    + destruct (Delete_looks_up_caller_org (Some user) path s) as (rest & Hcalls & _). eauto.
Qed.

End Properties.

(** ** Validation of the standard service *)

Section StandardValidation.

Variable GlobalOrgID : Z.
Context {World : Type} {backend : filestorage.FileStorage World}.
Variable policy : uploadPolicy.
Variable sanitize :
  option SignedInUser -> UploadRequest -> string -> option UpsertFileCommand * option error.

Lemma validate_oversized user req storagePath :
  MAX_UPLOAD_SIZE < Z.of_nat (List.length (Contents req)) ->
  standard_validateUploadRequest policy user req storagePath =
    fail "payload exceeds the maximum upload size".
Proof.
  intros Hbig. unfold standard_validateUploadRequest.
  assert (Hpos : 0 < MAX_UPLOAD_SIZE) by reflexivity.
  destruct (Z.eqb_spec (Z.of_nat (List.length (Contents req))) 0) as [Hz|_]; [lia|].
  destruct (Z.ltb_spec MAX_UPLOAD_SIZE (Z.of_nat (List.length (Contents req)))); [reflexivity|lia].
Qed.

Lemma validate_traversal user req storagePath :
  hasTraversalSegment storagePath = true ->
  ok (standard_validateUploadRequest policy user req storagePath) = false.
Proof.
  intros Htrav. unfold standard_validateUploadRequest.
  destruct (_ =? 0); [reflexivity|].
  destruct (_ <? _); [reflexivity|].
  rewrite Htrav. reflexivity.
Qed.

(** C4.  With the resources root mounted and the path under [resources/],
    a payload of more than [MAX_UPLOAD_SIZE] (3 MiB) bytes gets
    [ErrValidationFailed]: the calls made are the root lookup and the
    validation, so [Upsert] is not invoked and the world is unchanged. *)
Theorem Upload_rejects_oversized user req (s : state World) upload t' :
  resolveUploadRoot GlobalOrgID user s = (Some upload, t') ->
  strings.HasPrefix (Path req) (RootResources +:+ "/") = true ->
  MAX_UPLOAD_SIZE < Z.of_nat (List.length (Contents req)) ->
  MAX_UPLOAD_SIZE = 3145728 /\
  Upload GlobalOrgID (checks := validatingChecks policy sanitize) user req s =
    (Some ErrValidationFailed,
     stateAfter s t' (world s)
       [call_getRoot (getOrgId GlobalOrgID user) RootResources;
        call_validateUploadRequest user req (strings.TrimPrefix (Path req) RootResources)]
       [validationFailedLine req "payload exceeds the maximum upload size"]).
Proof.
  intros Hroot Hprefix Hbig. split; [reflexivity|].
  rewrite (Upload_rejects_invalid GlobalOrgID (checks := validatingChecks policy sanitize)
             user req s upload t' Hroot Hprefix);
    cbn [validateUploadRequest validatingChecks];
    rewrite (validate_oversized user req _ Hbig); reflexivity.
Qed.

(** C5.  With the resources root mounted and the path under [resources/],
    a path with a [..] segment gets [ErrValidationFailed]: the calls made
    are the root lookup and the validation, so [Upsert] is not invoked and
    the world is unchanged. *)
Theorem Upload_rejects_traversal user req (s : state World) upload t' :
  resolveUploadRoot GlobalOrgID user s = (Some upload, t') ->
  strings.HasPrefix (Path req) (RootResources +:+ "/") = true ->
  hasTraversalSegment (Path req) = true ->
  let storagePath := strings.TrimPrefix (Path req) RootResources in
  Upload GlobalOrgID (checks := validatingChecks policy sanitize) user req s =
    (Some ErrValidationFailed,
     stateAfter s t' (world s)
       [call_getRoot (getOrgId GlobalOrgID user) RootResources;
        call_validateUploadRequest user req storagePath]
       [validationFailedLine req
          (reason (standard_validateUploadRequest policy user req storagePath))]).
Proof.
  intros Hroot Hprefix Htrav storagePath.
  apply (Upload_rejects_invalid GlobalOrgID (checks := validatingChecks policy sanitize)
           user req s upload t' Hroot Hprefix).
  cbn [validateUploadRequest validatingChecks].
  apply validate_traversal, traversal_survives_trim; assumption.
Qed.

End StandardValidation.

(** ** Construction *)

(** C10.  [ProvideService] returns a service whatever [LoadStorageConfig]
    reports: the error is looked at and dropped, and the service is the
    one built from the settings that came with it, which alone (with the
    environment) decide whether the devenv root joins the public-static
    root.  The function has no error result of its own. *)
Theorem ProvideService_ignores_load_error
    GlobalOrgID (LoadStorageConfig : Cfg -> GlobalStorageConfig * option error)
    env prod join notExist flag sql features cfg :
  let built :=
    ProvideService GlobalOrgID LoadStorageConfig env prod join notExist flag
      sql features cfg in
  built =
    ProvideService GlobalOrgID (fun c => (fst (LoadStorageConfig c), None))
      env prod join notExist flag sql features cfg /\
  List.length (default [] (rootsByOrgId (tree built) !! GlobalOrgID)) =
    if AddDevEnv (fst (LoadStorageConfig cfg)) && negb (String.eqb env prod)
       && negb (notExist (join [StaticRootPath cfg; ".."; "devenv"]))
    then 2%nat else 1%nat.
Proof.
  intros built. subst built. unfold ProvideService.
  destruct (LoadStorageConfig cfg) as [settings err]. cbn [fst].
  split; [reflexivity|].
  unfold newStandardStorageService, init. cbn [tree rootsByOrgId].
  rewrite lookup_insert_eq. cbn [default].
  destruct (AddDevEnv settings), (String.eqb env prod), (notExist _); reflexivity.
Qed.

(** ** The service on a sample deployment *)

(** C2.  Upload feature flag off, so the resources root is not mounted for
    organisation 1.  [Upload] returns the sentinel
    [ErrUploadFeatureDisabled]; [Delete] returns an error built on the
    spot, with another text, which is not that sentinel.  Neither reaches
    a backend. *)
Theorem feature_disabled_errors_differ :
  fst (resolveUploadRoot sample.GlobalOrgID sample.editor
         (sample.start false sample.stored)) = None /\
  fst (sample.runUpload false sample.stored sample.editor
         (sample.request "resources/a.txt" sample.png false)) =
    Some ErrUploadFeatureDisabled /\
  fst (sample.runDelete false sample.stored sample.editor "resources/a.txt") =
    Some (errorString "upload feature is not enabled") /\
  fst (sample.runDelete false sample.stored sample.editor "resources/a.txt") <>
    fst (sample.runUpload false sample.stored sample.editor
           (sample.request "resources/a.txt" sample.png false)) /\
  filter isBackendCall
    (calls (snd (sample.runUpload false sample.stored sample.editor
                   (sample.request "resources/a.txt" sample.png false)))) = [] /\
  filter isBackendCall
    (calls (snd (sample.runDelete false sample.stored sample.editor "resources/a.txt"))) = [].
Proof. repeat split; try (vm_compute; reflexivity). vm_compute. discriminate. Qed.

(** C3.  The database is down, so every backend operation fails with the
    backend's own error.  [Upload] gives the caller [ErrUploadInternalError];
    [Delete] gives the caller the backend's error itself. *)
Theorem Delete_returns_backend_error :
  fst (filestorage.Delete sample.resources "/a.txt" sample.broken) =
    Some memstore.unavailable /\
  fst (sample.runDelete true sample.broken sample.editor "/a.txt") =
    Some memstore.unavailable /\
  fst (sample.runDelete true sample.broken sample.editor "/a.txt") <>
    Some ErrUploadInternalError /\
  fst (sample.runUpload true sample.broken sample.editor
         (sample.request "resources/a.txt" sample.png true)) =
    Some ErrUploadInternalError /\
  fst (sample.runUpload true sample.broken sample.editor
         (sample.request "resources/a.txt" sample.png false)) =
    Some ErrUploadInternalError.
Proof. repeat split; try (vm_compute; reflexivity). vm_compute. discriminate. Qed.

Lemma sample_root_mounted :
  resolveUploadRoot sample.GlobalOrgID sample.editor (sample.start true sample.stored) =
    (Some sample.resources, sample.mounted).
Proof. vm_compute. reflexivity. Defined.

Lemma Upload_overwrite_check_sample :
  sample.runUpload true sample.stored sample.editor
    (sample.request "resources/a.txt" sample.png false) =
    (Some ErrFileAlreadyExists,
     stateAfter (sample.start true sample.stored) sample.mounted sample.stored
       [call_getRoot 1 RootResources;
        call_validateUploadRequest sample.editor
          (sample.request "resources/a.txt" sample.png false) "/a.txt";
        call_sanitizeUploadRequest sample.editor
          (sample.request "resources/a.txt" sample.png false) "/a.txt";
        call_Get sample.resources "/a.txt"]
       [uploadingLine (sample.request "resources/a.txt" sample.png false)]) /\
  fst (sample.runUpload true sample.stored sample.editor
         (sample.request "resources/a.txt" sample.png true)) = None /\
  memstore.files
    (world (snd (sample.runUpload true sample.stored sample.editor
                   (sample.request "resources/a.txt" sample.png true)))) !! "/a.txt" =
    Some {| fileContents := sample.png; fileMimeType := "image/png"; fileProperties := ∅ |} /\
  filter isBackendCall
    (calls (snd (sample.runUpload true sample.stored sample.editor
                   (sample.request "resources/a.txt" sample.png true)))) =
    [call_Upsert sample.resources
       (Some (sample.commandOf (sample.request "resources/a.txt" sample.png true)))].
Proof.
  unfold sample.runUpload.
  destruct (Upload_overwrite_check sample.GlobalOrgID (checks := sample.checks) sample.editor
              (sample.request "resources/a.txt" sample.png false)
              (sample.start true sample.stored) sample.resources sample.mounted
              (Some (sample.commandOf (sample.request "resources/a.txt" sample.png false)))
              sample_root_mounted eq_refl eq_refl eq_refl) as [Hkeep _].
  destruct (Upload_overwrite_check sample.GlobalOrgID (checks := sample.checks) sample.editor
              (sample.request "resources/a.txt" sample.png true)
              (sample.start true sample.stored) sample.resources sample.mounted
              (Some (sample.commandOf (sample.request "resources/a.txt" sample.png true)))
              sample_root_mounted eq_refl eq_refl eq_refl) as [_ Hwrite].
  rewrite (Hkeep eq_refl sample.logo eq_refl), (Hwrite eq_refl).
  repeat split; vm_compute; reflexivity.
Defined.

Lemma oversized_is_too_large :
  MAX_UPLOAD_SIZE <
  Z.of_nat (List.length (Contents (sample.request "resources/big.png" sample.oversized true))).
Proof.
  cbn [Contents sample.request]. unfold sample.oversized.
  rewrite List.repeat_length, Z2Nat.id; [apply Z.lt_succ_diag_r | discriminate].
Defined.

Lemma Upload_rejects_oversized_sample :
  fst (sample.runUpload true sample.stored sample.editor
         (sample.request "resources/big.png" sample.oversized true)) =
    Some ErrValidationFailed /\
  world (snd (sample.runUpload true sample.stored sample.editor
                (sample.request "resources/big.png" sample.oversized true))) =
    sample.stored.
Proof.
  unfold sample.runUpload.
  destruct (Upload_rejects_oversized sample.GlobalOrgID sample.allowAll
              standard_sanitizeUploadRequest sample.editor
              (sample.request "resources/big.png" sample.oversized true)
              (sample.start true sample.stored) sample.resources sample.mounted
              sample_root_mounted eq_refl oversized_is_too_large) as [_ Hrejected].
  change sample.checks with (validatingChecks sample.allowAll standard_sanitizeUploadRequest).
  rewrite Hrejected. split; reflexivity.
Defined.

Lemma Upload_rejects_traversal_sample :
  sample.runUpload true sample.stored sample.editor
    (sample.request "resources/../secret" sample.png true) =
    (Some ErrValidationFailed,
     stateAfter (sample.start true sample.stored) sample.mounted sample.stored
       [call_getRoot 1 RootResources;
        call_validateUploadRequest sample.editor
          (sample.request "resources/../secret" sample.png true) "/../secret"]
       [validationFailedLine (sample.request "resources/../secret" sample.png true)
          "traversal segment in path: /../secret"]).
Proof.
  unfold sample.runUpload.
  change sample.checks with (validatingChecks sample.allowAll standard_sanitizeUploadRequest).
  rewrite (Upload_rejects_traversal sample.GlobalOrgID sample.allowAll
             standard_sanitizeUploadRequest sample.editor
             (sample.request "resources/../secret" sample.png true)
             (sample.start true sample.stored) sample.resources sample.mounted
             sample_root_mounted eq_refl eq_refl).
  reflexivity.
Defined.

Lemma Upload_unsupported_storage_sample :
  sample.runUpload true sample.stored sample.editor
    (sample.request "public-static/img/logo.png" sample.png true) =
    (Some ErrUnsupportedStorage,
     stateAfter (sample.start true sample.stored) sample.mounted sample.stored
       [call_getRoot 1 RootResources] []).
Proof.
  unfold sample.runUpload.
  apply (Upload_unsupported_storage sample.GlobalOrgID (checks := sample.checks) sample.editor
           (sample.request "public-static/img/logo.png" sample.png true)
           (sample.start true sample.stored) sample.resources sample.mounted
           sample_root_mounted eq_refl).
Defined.

(** A traversal path and an empty payload: two reasons, one error. *)
Lemma Upload_validation_error_is_generic_sample :
  fst (sample.runUpload true sample.stored sample.editor
         (sample.request "resources/../secret" sample.png true)) =
    Some ErrValidationFailed /\
  fst (sample.runUpload true sample.stored sample.editor
         (sample.request "resources/empty.png" [] false)) =
    fst (sample.runUpload true sample.stored sample.editor
           (sample.request "resources/../secret" sample.png true)) /\
  Error ErrValidationFailed = "request validation failed" /\
  logs (snd (sample.runUpload true sample.stored sample.editor
               (sample.request "resources/../secret" sample.png true))) =
    [validationFailedLine (sample.request "resources/../secret" sample.png true)
       "traversal segment in path: /../secret"] /\
  logs (snd (sample.runUpload true sample.stored sample.editor
               (sample.request "resources/empty.png" [] false))) =
    [validationFailedLine (sample.request "resources/empty.png" [] false) "empty payload"].
Proof.
  unfold sample.runUpload.
  apply (Upload_validation_error_is_generic sample.GlobalOrgID (checks := sample.checks)
           sample.editor (sample.request "resources/../secret" sample.png true)
           (sample.start true sample.stored) sample.resources sample.mounted
           sample.editor (sample.request "resources/empty.png" [] false)
           (sample.start true sample.stored) sample.resources sample.mounted
           sample_root_mounted sample_root_mounted); reflexivity.
Defined.

(** A path that names another root goes to the resources backend as it is. *)
Lemma Delete_forwards_path_verbatim_sample :
  sample.runDelete true sample.stored sample.editor "public-static/img/logo.png" =
    (None,
     stateAfter (sample.start true sample.stored) sample.mounted
       {| memstore.files := delete "public-static/img/logo.png" (memstore.files sample.stored);
          memstore.down := false |}
       [call_getRoot 1 RootResources;
        call_Delete sample.resources "public-static/img/logo.png"] []).
Proof.
  unfold sample.runDelete.
  rewrite (Delete_forwards_path_verbatim sample.GlobalOrgID sample.editor
             "public-static/img/logo.png" (sample.start true sample.stored)
             sample.resources sample.mounted sample_root_mounted).
  reflexivity.
Defined.

(** ** Further runs of the pipeline *)

Lemma sample_root_not_mounted :
  resolveUploadRoot sample.GlobalOrgID sample.editor (sample.start false sample.stored) =
    (None, sample.unmounted).
Proof. vm_compute. reflexivity. Defined.

Lemma Upload_feature_disabled_sample :
  sample.runUpload false sample.stored sample.editor
    (sample.request "resources/a.txt" sample.png true) =
    (Some ErrUploadFeatureDisabled,
     stateAfter (sample.start false sample.stored) sample.unmounted sample.stored
       [call_getRoot 1 RootResources] []).
Proof.
  unfold sample.runUpload.
  apply (Upload_feature_disabled sample.GlobalOrgID (checks := sample.checks) sample.editor
           (sample.request "resources/a.txt" sample.png true)
           (sample.start false sample.stored) sample.unmounted sample_root_not_mounted).
Defined.

Lemma Delete_feature_disabled_sample :
  sample.runDelete false sample.stored sample.editor "resources/a.txt" =
    (Some (errorString "upload feature is not enabled"),
     stateAfter (sample.start false sample.stored) sample.unmounted sample.stored
       [call_getRoot 1 RootResources] []).
Proof.
  unfold sample.runDelete.
  apply (Delete_feature_disabled sample.GlobalOrgID sample.editor "resources/a.txt"
           (sample.start false sample.stored) sample.unmounted sample_root_not_mounted).
Defined.

Lemma Upload_sanitize_failed_sample :
  fst (Upload sample.GlobalOrgID (checks := sample.failingSanitizer) sample.editor
         (sample.request "resources/a.txt" sample.png true)
         (sample.start true sample.stored)) = Some ErrUploadInternalError /\
  filter isBackendCall
    (calls (snd (Upload sample.GlobalOrgID (checks := sample.failingSanitizer) sample.editor
                   (sample.request "resources/a.txt" sample.png true)
                   (sample.start true sample.stored)))) = [].
Proof.
  rewrite (Upload_sanitize_failed sample.GlobalOrgID (checks := sample.failingSanitizer)
             sample.editor (sample.request "resources/a.txt" sample.png true)
             (sample.start true sample.stored) sample.resources sample.mounted
             None (errorString "cannot normalise the path")
             sample_root_mounted eq_refl eq_refl eq_refl).
  split; reflexivity.
Defined.

Lemma Upload_existence_lookup_failed_sample :
  sample.runUpload true sample.broken sample.editor
    (sample.request "resources/a.txt" sample.png false) =
    (Some ErrUploadInternalError,
     stateAfter (sample.start true sample.broken) sample.mounted sample.broken
       [call_getRoot 1 RootResources;
        call_validateUploadRequest sample.editor
          (sample.request "resources/a.txt" sample.png false) "/a.txt";
        call_sanitizeUploadRequest sample.editor
          (sample.request "resources/a.txt" sample.png false) "/a.txt";
        call_Get sample.resources "/a.txt"]
       [uploadingLine (sample.request "resources/a.txt" sample.png false);
        existenceFailedLine (sample.request "resources/a.txt" sample.png false)
          memstore.unavailable]).
Proof.
  unfold sample.runUpload.
  apply (Upload_existence_lookup_failed sample.GlobalOrgID
           (backend := memstore.storage) (checks := sample.checks)
           sample.editor (sample.request "resources/a.txt" sample.png false)
           (sample.start true sample.broken) sample.resources sample.mounted
           (Some (sample.commandOf (sample.request "resources/a.txt" sample.png false)))
           None memstore.unavailable
           sample_root_mounted eq_refl eq_refl eq_refl eq_refl eq_refl).
Defined.

Lemma Upload_commit_without_overwrite_sample :
  fst (sample.runUpload true sample.stored sample.editor
         (sample.request "resources/new.png" sample.png false)) = None /\
  memstore.files
    (world (snd (sample.runUpload true sample.stored sample.editor
                   (sample.request "resources/new.png" sample.png false)))) !! "/new.png" =
    Some {| fileContents := sample.png; fileMimeType := "image/png"; fileProperties := ∅ |} /\
  memstore.files
    (world (snd (sample.runUpload true sample.stored sample.editor
                   (sample.request "resources/new.png" sample.png false)))) !! "/a.txt" =
    Some sample.logo.
Proof.
  unfold sample.runUpload.
  rewrite (Upload_commit_without_overwrite sample.GlobalOrgID
             (backend := memstore.storage) (checks := sample.checks)
             sample.editor (sample.request "resources/new.png" sample.png false)
             (sample.start true sample.stored) sample.resources sample.mounted
             (Some (sample.commandOf (sample.request "resources/new.png" sample.png false)))
             sample_root_mounted eq_refl eq_refl eq_refl eq_refl eq_refl).
  repeat split; vm_compute; reflexivity.
Defined.

(** ** The pipeline as a whole *)

Section Pipeline.

Variable GlobalOrgID : Z.
Context {World : Type} {backend : filestorage.FileStorage World} {checks : UploadChecks}.

Lemma callsSince_app (s s' : state World) made :
  calls s' = calls s ++ made -> callsSince s s' = made.
Proof. intros H. unfold callsSince. rewrite H. apply drop_app_length. Qed.

Lemma logsSince_app (s s' : state World) logged :
  logs s' = logs s ++ logged -> logsSince s s' = logged.
Proof. intros H. unfold logsSince. rewrite H. apply drop_app_length. Qed.

Ltac unfold_service :=
  unfold Upload, Delete, checkExisting, tree_getRoot,
    s_validateUploadRequest, s_sanitizeUploadRequest, upload_Get, upload_Upsert,
    upload_Delete, grafanaStorageLogger.Info, grafanaStorageLogger.Warn,
    grafanaStorageLogger.Error, writeLog, recordCall, bind, ret,
    resolveUploadRoot, backendCallsSince in *.

Ltac reduce_run :=
  cbn [negb self world calls logs fst snd sql tree] in *.

(** One case per way through [Upload] or [Delete]. *)
Ltac split_run :=
  unfold_service; reduce_run;
  repeat (match goal with
          | |- context [getRoot ?g ?o ?n ?t] =>
              destruct (getRoot g o n t) as [[?upload|] ?t'] eqn:?Hroot
          | |- context [strings.HasPrefix ?p ?q] =>
              destruct (strings.HasPrefix p q) eqn:?Hprefix
          | |- context [ok ?v] => destruct (ok v) eqn:?Hok
          | |- context [sanitizeUploadRequest ?u ?r ?p] =>
              destruct (sanitizeUploadRequest u r p) as [?cmd [?cause|]] eqn:?Hsan
          | |- context [OverwriteExistingFile ?r] =>
              destruct (OverwriteExistingFile r) eqn:?Hover
          | |- context [filestorage.Get ?u ?p ?w] =>
              destruct (filestorage.Get u p w) as [[?file|] [?cause|]] eqn:?Hget
          | |- context [filestorage.Upsert ?u ?c ?w] =>
              destruct (filestorage.Upsert u c w) as [[?cause|] ?w'] eqn:?Hupsert
          | |- context [filestorage.Delete ?u ?p ?w] =>
              destruct (filestorage.Delete u p w) as [[?cause|] ?w'] eqn:?Hdelete
          end; reduce_run).

(** After [split_run]: the calls and lines since the start, as lists. *)
Ltac read_run :=
  unfold callsSince, logsSince; reduce_run;
  rewrite <- ?app_assoc; cbn [app];
  rewrite ?drop_app_length, ?drop_all; cbn [List.filter isBackendCall loggedAt existsb level levelEqb orb].

(** X6.  Whatever the request, the state and the collaborators do,
    [Upload] returns nil or one of the five sentinels of the package: an
    error of the sanitizer or of a backend never reaches the caller. *)
Theorem Upload_returns_only_sentinels user req (s : state World) :
  In (fst (Upload GlobalOrgID user req s))
     [None; Some ErrUploadFeatureDisabled; Some ErrUnsupportedStorage;
      Some ErrValidationFailed; Some ErrUploadInternalError; Some ErrFileAlreadyExists].
Proof. split_run; cbn [In]; tauto. Qed.

(** X7.  [Upload] returns nil only when the whole pipeline went through:
    the root was mounted, the path was under [resources/], validation and
    sanitization passed, the existence lookup (when made) found nothing,
    and [Upsert] was called with the sanitized command and returned nil.
    The world is then the one [Upsert] left, and the only line logged is
    the Info line. *)
Theorem Upload_nil_means_committed user req (s : state World) :
  fst (Upload GlobalOrgID user req s) = None ->
  exists upload t' cmd,
    resolveUploadRoot GlobalOrgID user s = (Some upload, t') /\
    strings.HasPrefix (Path req) (RootResources +:+ "/") = true /\
    ok (validateUploadRequest user req (strings.TrimPrefix (Path req) RootResources)) = true /\
    sanitizeUploadRequest user req (strings.TrimPrefix (Path req) RootResources) = (cmd, None) /\
    (OverwriteExistingFile req = false ->
     filestorage.Get upload (strings.TrimPrefix (Path req) RootResources) (world s) =
       (None, None)) /\
    filestorage.Upsert upload cmd (world s) =
      (None, world (snd (Upload GlobalOrgID user req s))) /\
    logsSince s (snd (Upload GlobalOrgID user req s)) = [uploadingLine req].
Proof.
  split_run; read_run; intros Hnil; try discriminate Hnil;
    eexists _, _, _; repeat split; try reflexivity; try discriminate; eauto.
Qed.

(** X8.  [Upsert] is called only on the resources root resolved for the
    caller's organisation, only with the command a successful sanitization
    of a validated request returned, and only when overwriting was asked
    for or the existence lookup found neither a file nor an error. *)
Theorem Upload_upsert_only_after_checks user req (s : state World) root cmd :
  In (call_Upsert root cmd) (callsSince s (snd (Upload GlobalOrgID user req s))) ->
  fst (resolveUploadRoot GlobalOrgID user s) = Some root /\
  strings.HasPrefix (Path req) (RootResources +:+ "/") = true /\
  ok (validateUploadRequest user req (strings.TrimPrefix (Path req) RootResources)) = true /\
  sanitizeUploadRequest user req (strings.TrimPrefix (Path req) RootResources) = (cmd, None) /\
  (OverwriteExistingFile req = true \/
   filestorage.Get root (strings.TrimPrefix (Path req) RootResources) (world s) =
     (None, None)).
Proof.
  split_run; read_run; cbn [In]; intros Hin;
    repeat (destruct Hin as [Hin|Hin]; try discriminate Hin); try contradiction;
    injection Hin as <- <-; repeat split; auto; congruence.
Qed.

(** X9.  What [Upload] does to the backend is at most one [Get] followed by
    at most one [Upsert], and never a [Delete]; the world changes only
    through that [Upsert]. *)
Theorem Upload_backend_footprint user req (s : state World) :
  let storagePath := strings.TrimPrefix (Path req) RootResources in
  let s' := snd (Upload GlobalOrgID user req s) in
  (backendCallsSince s s' = [] /\ world s' = world s) \/
  (exists upload,
     backendCallsSince s s' = [call_Get upload storagePath] /\ world s' = world s) \/
  (exists upload cmd,
     backendCallsSince s s' = [call_Upsert upload cmd] /\
     world s' = snd (filestorage.Upsert upload cmd (world s))) \/
  (exists upload cmd,
     backendCallsSince s s' = [call_Get upload storagePath; call_Upsert upload cmd] /\
     world s' = snd (filestorage.Upsert upload cmd (world s))).
Proof.
  intros storagePath s'. subst storagePath s'.
  split_run; read_run;
    first [ left; split; reflexivity
          | right; left; eexists; split; reflexivity
          | right; right; left; eexists _, _; split; [reflexivity|];
            rewrite Hupsert; reflexivity
          | right; right; right; eexists _, _; split; [reflexivity|];
            rewrite Hupsert; reflexivity ].
Qed.

(** X10.  The log tells the two failures that have a cause apart from the
    rest: a line at Error level is written exactly when the caller gets
    [ErrUploadInternalError], and then it is the last line and carries
    the error of the sanitizer or of the backend; a line at Warn level is
    written exactly when the caller gets [ErrValidationFailed].  A call
    writes at most two lines. *)
Theorem Upload_log_levels user req (s : state World) :
  let result := fst (Upload GlobalOrgID user req s) in
  let logged := logsSince s (snd (Upload GlobalOrgID user req s)) in
  (loggedAt lvlError logged = true <-> result = Some ErrUploadInternalError) /\
  (loggedAt lvlWarn logged = true <-> result = Some ErrValidationFailed) /\
  (result = Some ErrUploadInternalError ->
   exists line key cause,
     last logged = Some line /\ level line = lvlError /\
     In (key, logError cause) (context line)) /\
  (List.length logged <= 2)%nat.
Proof.
  intros result logged. subst result logged.
  split_run; read_run; cbn [List.length last];
    (split; [split; intros H; try discriminate H; reflexivity|]);
    (split; [split; intros H; try discriminate H; reflexivity|]);
    (split; [intros H;
             first [ discriminate H
                   | eexists _, _, _; repeat split; cbn [context In]; eauto ]
            | lia]).
Qed.

(** X11.  Every path [Upload] hands on (to validation, to sanitization, to
    the existence lookup) is the request path with the root name cut off,
    leading slash kept; the caller and the request are handed on as they
    came, and the root is looked up under [resources] in the caller's
    organisation. *)
Theorem Upload_hands_on_storage_path user req (s : state World) :
  Forall
    (fun c =>
       match c with
       | call_getRoot orgId name => orgId = getOrgId GlobalOrgID user /\ name = RootResources
       | call_validateUploadRequest u r storagePath
       | call_sanitizeUploadRequest u r storagePath =>
           u = user /\ r = req /\
           Path req = RootResources +:+ storagePath /\
           strings.HasPrefix storagePath "/" = true
       | call_Get _ storagePath =>
           Path req = RootResources +:+ storagePath /\
           strings.HasPrefix storagePath "/" = true
       | call_Upsert _ _ => True
       | call_Delete _ _ => False
       end)
    (callsSince s (snd (Upload GlobalOrgID user req s))).
Proof.
  split_run; read_run;
    try (destruct (storagePath_of_upload_path (Path req) Hprefix) as (rest & Hpath & Htrim);
         rewrite Htrim);
    repeat (apply Forall_cons; split); try apply Forall_nil;
    repeat split; try reflexivity; try exact Hpath.
Qed.

(** X12.  [Delete] writes nothing to the log, whether the root is missing
    or the backend fails; it reaches the backend with at most one
    [Delete], never a [Get] or an [Upsert]; and it returns nil only when
    that backend [Delete] was made and returned nil. *)
Theorem Delete_is_silent user path (s : state World) :
  let s' := snd (Delete GlobalOrgID user path s) in
  logs s' = logs s /\
  ((backendCallsSince s s' = [] /\ world s' = world s) \/
   (exists upload,
      backendCallsSince s s' = [call_Delete upload path] /\
      world s' = snd (filestorage.Delete upload path (world s)))) /\
  (fst (Delete GlobalOrgID user path s) = None ->
   exists upload,
     fst (resolveUploadRoot GlobalOrgID user s) = Some upload /\
     fst (filestorage.Delete upload path (world s)) = None).
Proof.
  intros s'. subst s'.
  split_run; read_run;
    (split; [reflexivity|]);
    (split; [first [ left; split; reflexivity
                   | right; eexists; split; [reflexivity|]; rewrite Hdelete; reflexivity ]|]);
    intros H; try discriminate H; eexists; split; [reflexivity|];
    rewrite Hdelete; reflexivity.
Qed.

(** X17.  What each error of [Upload] tells the caller.
    [ErrUploadFeatureDisabled]: the resources root is not mounted for the
    caller's organisation.  [ErrUnsupportedStorage]: it is mounted and the
    path is not under [resources/].  [ErrValidationFailed]: validation was
    reached and failed.  [ErrFileAlreadyExists]: the request passed the
    checks, did not ask to overwrite, and the lookup found a file and no
    error. *)
Theorem Upload_error_means user req (s : state World) :
  let result := fst (Upload GlobalOrgID user req s) in
  let mounted := fst (resolveUploadRoot GlobalOrgID user s) in
  let underRoot := strings.HasPrefix (Path req) (RootResources +:+ "/") in
  let storagePath := strings.TrimPrefix (Path req) RootResources in
  (result = Some ErrUploadFeatureDisabled <-> mounted = None) /\
  (result = Some ErrUnsupportedStorage <-> mounted <> None /\ underRoot = false) /\
  (result = Some ErrValidationFailed <->
   mounted <> None /\ underRoot = true /\
   ok (validateUploadRequest user req storagePath) = false) /\
  (result = Some ErrFileAlreadyExists <->
   exists upload file,
     mounted = Some upload /\ underRoot = true /\
     ok (validateUploadRequest user req storagePath) = true /\
     snd (sanitizeUploadRequest user req storagePath) = None /\
     OverwriteExistingFile req = false /\
     filestorage.Get upload storagePath (world s) = (Some file, None)).
Proof.
  intros result mounted underRoot storagePath.
  subst result mounted underRoot storagePath.
  split_run; repeat (split || intro);
    repeat match goal with
           | H : _ /\ _ |- _ => destruct H
           | H : exists _, _ |- _ => destruct H
           end;
    try discriminate; try congruence;
    try (eexists _, _; repeat split; eauto; congruence).
Qed.

End Pipeline.

Lemma Upload_nil_means_committed_sample :
  exists upload t' cmd,
    resolveUploadRoot sample.GlobalOrgID sample.editor (sample.start true sample.stored) =
      (Some upload, t') /\
    strings.HasPrefix "resources/new.png" (RootResources +:+ "/") = true /\
    ok (standard_validateUploadRequest sample.allowAll sample.editor
          (sample.request "resources/new.png" sample.png false) "/new.png") = true /\
    standard_sanitizeUploadRequest sample.editor
      (sample.request "resources/new.png" sample.png false) "/new.png" = (cmd, None) /\
    (false = false ->
     memstore.Get upload "/new.png" sample.stored = (None, None)) /\
    memstore.Upsert upload cmd sample.stored =
      (None,
       world (snd (sample.runUpload true sample.stored sample.editor
                     (sample.request "resources/new.png" sample.png false)))) /\
    logsSince (sample.start true sample.stored)
      (snd (sample.runUpload true sample.stored sample.editor
              (sample.request "resources/new.png" sample.png false))) =
      [uploadingLine (sample.request "resources/new.png" sample.png false)].
Proof.
  apply (Upload_nil_means_committed sample.GlobalOrgID
           (backend := memstore.storage) (checks := sample.checks) sample.editor
           (sample.request "resources/new.png" sample.png false)
           (sample.start true sample.stored)).
  vm_compute. reflexivity.
Defined.

Lemma Upload_upsert_only_after_checks_sample :
  fst (resolveUploadRoot sample.GlobalOrgID sample.editor (sample.start true sample.stored)) =
    Some sample.resources /\
  strings.HasPrefix "resources/a.txt" (RootResources +:+ "/") = true /\
  ok (standard_validateUploadRequest sample.allowAll sample.editor
        (sample.request "resources/a.txt" sample.png true) "/a.txt") = true /\
  standard_sanitizeUploadRequest sample.editor
    (sample.request "resources/a.txt" sample.png true) "/a.txt" =
    (Some (sample.commandOf (sample.request "resources/a.txt" sample.png true)), None) /\
  (true = true \/ memstore.Get sample.resources "/a.txt" sample.stored = (None, None)).
Proof.
  apply (Upload_upsert_only_after_checks sample.GlobalOrgID
           (backend := memstore.storage) (checks := sample.checks) sample.editor
           (sample.request "resources/a.txt" sample.png true)
           (sample.start true sample.stored) sample.resources
           (Some (sample.commandOf (sample.request "resources/a.txt" sample.png true)))).
  vm_compute. right. right. right. left. reflexivity.
Defined.

(** ** The namespace [ProvideService] builds *)


(** ** The helpers of the share dialog *)

Import SharePublicDashboardUtils.

Lemma sortInsert_enabled (x : ListPublicDashboardResponse) sorted :
  isEnabled x = true ->
  sortInsert (fun a b => Number (isEnabled b) - Number (isEnabled a)) x sorted = x :: sorted.
Proof.
  intros Hx. destruct sorted as [|y rest]; [reflexivity|].
  cbn [sortInsert]. rewrite Hx. destruct (isEnabled y); reflexivity.
Qed.

Lemma sortInsert_disabled (x : ListPublicDashboardResponse) enabled disabled :
  isEnabled x = false ->
  Forall (fun d => isEnabled d = true) enabled ->
  Forall (fun d => isEnabled d = false) disabled ->
  sortInsert (fun a b => Number (isEnabled b) - Number (isEnabled a)) x (enabled ++ disabled) =
    enabled ++ x :: disabled.
Proof.
  intros Hx Hen Hdis. induction Hen as [|y enabled Hy Hen IH].
  - destruct Hdis as [|y disabled Hy Hdis]; [reflexivity|].
    cbn [app sortInsert]. rewrite Hx, Hy. reflexivity.
  - cbn [app sortInsert]. rewrite Hx, Hy. cbn [Number Z.sub Z.leb Z.compare Z.opp Z.add].
    rewrite IH. reflexivity.
Qed.

Lemma Forall_filter_holds {A : Type} (f : A -> bool) (l : list A) :
  Forall (fun x => f x = true) (List.filter f l).
Proof.
  induction l as [|x l IH]; [constructor|].
  cbn [List.filter]. destruct (f x) eqn:Hx; [constructor; assumption | assumption].
Qed.

Lemma sort_enabled_first (resp : list ListPublicDashboardResponse) :
  sort (fun a b => Number (isEnabled b) - Number (isEnabled a)) resp =
    List.filter isEnabled resp ++ List.filter (fun d => negb (isEnabled d)) resp.
Proof.
  induction resp as [|x resp IH]; [reflexivity|].
  cbn [sort List.filter]. rewrite IH. destruct (isEnabled x) eqn:Hx; cbn [negb].
  - apply sortInsert_enabled, Hx.
  - apply sortInsert_disabled.
    + exact Hx.
    + apply Forall_filter_holds.
    + eapply Forall_impl; [apply (Forall_filter_holds (fun d => negb (isEnabled d)))|].
      intros d Hd. cbv beta in Hd. destruct (isEnabled d); [discriminate | reflexivity].
Qed.

(** X14.  What [listPublicDashboards] hands to [setPublicDashboards] is the
    backend's list with the enabled dashboards first, then the disabled
    ones, each group in the order the backend gave; no entry is lost or
    added.  When the request is rejected nothing is set and the rejection
    is the caller's. *)
Theorem listPublicDashboards_enabled_first (value rejection : Type)
    (get : string -> settled rejection (list ListPublicDashboardResponse)) :
  match get listPublicDashboardsUrl with
  | resolved resp =>
      listPublicDashboards value rejection get =
        ([backendGet value listPublicDashboardsUrl;
          setPublicDashboards value
            (List.filter isEnabled resp ++ List.filter (fun d => negb (isEnabled d)) resp)],
         None) /\
      List.filter isEnabled resp ++ List.filter (fun d => negb (isEnabled d)) resp ≡ₚ resp
  | rejected reason =>
      listPublicDashboards value rejection get =
        ([backendGet value listPublicDashboardsUrl], Some reason)
  end.
Proof.
  unfold listPublicDashboards.
  destruct (get listPublicDashboardsUrl) as [resp|reason]; [|reflexivity].
  rewrite sort_enabled_first. split; [reflexivity|].
  induction resp as [|x resp IH]; [reflexivity|].
  cbn [List.filter]. destruct (isEnabled x); cbn [negb app].
  - constructor. exact IH.
  - rewrite <- Permutation_middle. constructor. exact IH.
Qed.

(** X15.  [savePublicDashboardConfig] posts the configuration as it was
    given.  When the backend answers, the success notification is
    dispatched once and then the answer is set, without its [orgId] and
    with every other key as the backend sent it.  When the request is
    rejected there is no notification, nothing is set, and the rejection is
    the caller's. *)
Theorem savePublicDashboardConfig_strips_orgId (value rejection : Type)
    (post : string -> gmap string value -> settled rejection (gmap string value))
    (dashboardUid : string) (publicDashboardConfig : gmap string value) :
  let url := savePublicDashboardConfigUrl dashboardUid in
  match post url publicDashboardConfig with
  | resolved pdResp =>
      exists saved,
        savePublicDashboardConfig value rejection post dashboardUid publicDashboardConfig =
          ([backendPost value url publicDashboardConfig;
            dispatchSuccess value "Dashboard sharing configuration saved";
            setPublicDashboard value saved], None) /\
        saved !! "orgId" = None /\
        forall key, key <> "orgId" -> saved !! key = pdResp !! key
  | rejected reason =>
      savePublicDashboardConfig value rejection post dashboardUid publicDashboardConfig =
        ([backendPost value url publicDashboardConfig], Some reason)
  end.
Proof.
  intros url. subst url. unfold savePublicDashboardConfig.
  destruct (post _ publicDashboardConfig) as [pdResp|reason]; [|reflexivity].
  eexists. split; [reflexivity|]. split.
  - apply lookup_delete_eq.
  - intros key Hkey. apply lookup_delete_ne. congruence.
Qed.

Lemma length_append (a b : string) :
  String.length (a +:+ b) = (String.length a + String.length b)%nat.
Proof.
  induction a as [|c a IH]; [reflexivity|].
  rewrite append_String. cbn [String.length]. rewrite IH. reflexivity.
Qed.

Lemma append_inv_tail (a b tail : string) : a +:+ tail = b +:+ tail -> a = b.
Proof.
  revert b. induction a as [|c a IH]; intros [|d b] H.
  - reflexivity.
  - apply (f_equal String.length) in H. rewrite !length_append in H.
    cbn [String.length] in H. lia.
  - apply (f_equal String.length) in H. rewrite !length_append in H.
    cbn [String.length] in H. lia.
  - rewrite !append_String in H. injection H as -> H. f_equal. apply IH, H.
Qed.

(** X16.  The configuration of a dashboard is read from and saved to one
    and the same URL, and two dashboards never share it.  The public URL
    of a dashboard tells its access token, under one origin; a missing
    token gives the URL of the token spelled [undefined]. *)
Theorem dashboard_urls (origin uid1 uid2 token1 token2 : string) :
  getPublicDashboardConfigUrl uid1 = savePublicDashboardConfigUrl uid1 /\
  (getPublicDashboardConfigUrl uid1 = getPublicDashboardConfigUrl uid2 -> uid1 = uid2) /\
  (generatePublicDashboardUrl origin (Some token1) =
   generatePublicDashboardUrl origin (Some token2) -> token1 = token2) /\
  generatePublicDashboardUrl origin None =
    generatePublicDashboardUrl origin (Some "undefined").
Proof.
  split; [reflexivity|]. split; [|split; [|reflexivity]].
  - unfold getPublicDashboardConfigUrl. intros H.
    apply String.app_inj in H. apply append_inv_tail in H. exact H.
  - unfold generatePublicDashboardUrl. intros H.
    apply String.app_inj in H. apply String.app_inj in H. exact H.
Qed.
